(** * Express-Jobly: the partial-update clause builder

    A shallow embedding of [helpers/sql.js] ([sqlForPartialUpdate]) and of the
    one caller present in the sources, [models/job.js] ([Job.update]),
    followed by the properties the specification states about them. *)

From Stdlib Require Import Ascii String ZArith.
From stdpp Require Import base option list strings pretty gmap.

Local Open Scope string_scope.

(** ** JavaScript values

    The builder observes a value in two ways only: through [||], which asks
    whether it is truthy, and through a template literal, which converts it to
    a string.  Numbers are the integer-valued ones (no NaN, no fraction, and
    below 10^21 in magnitude, where the conversion prints plain decimal
    digits).  [JObj text] stands for an object or a function, kept by the
    string its conversion yields; symbols and objects whose conversion throws
    are not represented. *)

Inductive JsValue : Type :=
  | JUndefined
  | JNull
  | JBool (b : bool)
  | JNum (n : Z)
  | JStr (s : string)
  | JObj (text : string).

#[global] Instance JsValue_eq_dec : EqDecision JsValue.
Proof. solve_decision. Defined.

(** ToBoolean: [undefined], [null], [false], [0] and the empty string are
    falsy, everything else is truthy. *)
Definition truthy (v : JsValue) : bool :=
  match v with
  | JUndefined | JNull => false
  | JBool b => b
  | JNum n => negb (n =? 0)%Z
  | JStr s => negb (String.eqb s "")
  | JObj _ => true
  end.

(** ToString, as a template literal applies it to an interpolated value. *)
Definition toString (v : JsValue) : string :=
  match v with
  | JUndefined => "undefined"
  | JNull => "null"
  | JBool true => "true"
  | JBool false => "false"
  | JNum n => pretty n
  | JStr s => s
  | JObj text => text
  end.

(** [a || b] *)
Definition jsOr (a b : JsValue) : JsValue := if truthy a then a else b.

(** The double quote character, as a one-character string. *)
Definition dquote : string := String "034"%char EmptyString.

(** A line break, as a one-character string. *)
Definition nl : string := String "010"%char EmptyString.

(** ** Objects

    An object is the list of its own enumerable string-keyed properties in
    the order [Object.keys] and [Object.values] enumerate them; its keys are
    pairwise distinct ([wf_object]).  Objects written as literals or parsed
    from JSON inherit from [Object.prototype]. *)

Abbreviation JsObject := (list (string * JsValue)).

Definition wf_object (o : JsObject) : Prop := NoDup (o.*1).

(** [Object.keys(o)] and [Object.values(o)] *)
Definition Object_keys (o : JsObject) : list string := o.*1.
Definition Object_values (o : JsObject) : list JsValue := o.*2.

(** The own property [k] of [o], if there is one. *)
Fixpoint getOwnProperty (o : JsObject) (k : string) : option JsValue :=
  match o with
  | [] => None
  | (k', v) :: o' => if String.eqb k' k then Some v else getOwnProperty o' k
  end.

Definition nativeFunction (name : string) : JsValue :=
  JObj ("function " +:+ name +:+ "() { [native code] }").

(** What a property read finds on [Object.prototype] (Node.js): its methods,
    the [constructor], and the [__proto__] accessor, which on a plain object
    answers [Object.prototype] itself. *)
Definition Object_prototype : JsObject :=
  [ ("constructor", nativeFunction "Object");
    ("__defineGetter__", nativeFunction "__defineGetter__");
    ("__defineSetter__", nativeFunction "__defineSetter__");
    ("hasOwnProperty", nativeFunction "hasOwnProperty");
    ("__lookupGetter__", nativeFunction "__lookupGetter__");
    ("__lookupSetter__", nativeFunction "__lookupSetter__");
    ("isPrototypeOf", nativeFunction "isPrototypeOf");
    ("propertyIsEnumerable", nativeFunction "propertyIsEnumerable");
    ("toString", nativeFunction "toString");
    ("valueOf", nativeFunction "valueOf");
    ("__proto__", JObj "[object Object]");
    ("toLocaleString", nativeFunction "toLocaleString") ].

(** [o[k]]: the own property, else the inherited one, else [undefined]. *)
Definition jsGet (o : JsObject) (k : string) : JsValue :=
  match getOwnProperty o k with
  | Some v => v
  | None => default JUndefined (getOwnProperty Object_prototype k)
  end.

(** ** Completions: a call returns a value or throws. *)

Inductive JsError : Type :=
  | BadRequestError (message : string)
  | NotFoundError (message : string)
  | TypeError (message : string).

Inductive Completion (A : Type) : Type :=
  | Return (a : A)
  | Throw (e : JsError).
Arguments Return {A} a.
Arguments Throw {A} e.

(** ** helpers/sql.js

    [sqlForPartialUpdate] on the contents of its two arguments, both of them
    objects.  (An argument that is [undefined] is covered by the store model
    below.) *)

Record PartialUpdate : Type := mkPartialUpdate {
  setCols : string;
  values : list JsValue
}.

(** [jsToSql[colName] || colName], converted by the template literal. *)
Definition resolvedColumn (jsToSql : JsObject) (colName : string) : string :=
  toString (jsOr (jsGet jsToSql colName) (JStr colName)).

(** [(colName, idx) => `"${jsToSql[colName] || colName}"=$${idx + 1}`] *)
Definition colFragment (jsToSql : JsObject) (idx : nat) (colName : string) : string :=
  dquote +:+ resolvedColumn jsToSql colName +:+ dquote +:+ "=$" +:+ pretty (idx + 1).

(** [keys.map(...)] *)
Definition cols (keys : list string) (jsToSql : JsObject) : list string :=
  imap (colFragment jsToSql) keys.

Definition sqlForPartialUpdate (dataToUpdate jsToSql : JsObject)
  : Completion PartialUpdate :=
  let keys := Object_keys dataToUpdate in
  if (List.length keys =? 0)%nat then Throw (BadRequestError "No data") else
  Return {| setCols := String.concat ", " (cols keys jsToSql);
            values := Object_values dataToUpdate |}.

(** ** The same code over a store

    In [Effects] the two arguments are references into a heap of objects, and
    a call is a state transformer over a [World]: the heap, the statements
    sent to the database so far, and the database's answers.  A reference
    that holds no object plays the part of [undefined]: [Object.keys] and a
    property read throw their [TypeError] on it. *)

Module Effects.

Abbreviation Ref := nat.

Record World : Type := mkWorld {
  heap : gmap nat JsObject;
  queries : list (string * list JsValue);
  db_rows : string → list JsValue → list JsObject
}.

Definition M (A : Type) : Type := World → Completion A * World.

Definition run {A} (c : M A) (w : World) : Completion A * World := c w.

#[global] Instance M_ret : MRet M := λ A a w, (Return a, w).
#[global] Instance M_bind : MBind M := λ A B f c w,
  match c w with
  | (Return a, w') => f a w'
  | (Throw e, w') => (Throw e, w')
  end.

Definition throw {A} (e : JsError) : M A := λ w, (Throw e, w).

(** Reading the object a reference holds; [otherwise] is thrown when it
    holds none. *)
Definition deref (r : Ref) (otherwise : JsError) : M JsObject := λ w,
  match heap w !! r with
  | Some o => (Return o, w)
  | None => (Throw otherwise, w)
  end.

Definition notAnObject : JsError :=
  TypeError "Cannot convert undefined or null to object".

Definition cannotRead (k : string) : JsError :=
  TypeError ("Cannot read properties of undefined (reading '" +:+ k +:+ "')").

(** An object literal: a fresh object on the heap. *)
Definition alloc (o : JsObject) : M Ref := λ w,
  let r := fresh (dom (heap w)) in
  (Return r, mkWorld (<[r := o]> (heap w)) (queries w) (db_rows w)).

(** [db.query(sql, params)]: the statement goes to the database, which
    answers with rows.  Only an answered query is represented: a query the
    database rejects (a constraint violation, a lost connection), whose error
    the methods of [Job] let through, has no counterpart here, and what is
    proved of those methods is proved of the answered case. *)
Definition db_query (sql : string) (params : list JsValue) : M (list JsObject) := λ w,
  (Return (db_rows w sql params),
   mkWorld (heap w) (queries w ++ [(sql, params)]) (db_rows w)).

Definition Object_keys (r : Ref) : M (list string) :=
  o ← deref r notAnObject; mret (o.*1).

Definition Object_values (r : Ref) : M (list JsValue) :=
  o ← deref r notAnObject; mret (o.*2).

(** [r[k]] *)
Definition getProp (r : Ref) (k : string) : M JsValue :=
  o ← deref r (cannotRead k); mret (jsGet o k).

(** [array.map((x, idx) => ...)] with a callback that may read the store. *)
Fixpoint Array_map {A B} (f : nat → A → M B) (l : list A) : M (list B) :=
  match l with
  | [] => mret []
  | x :: l' => y ← f 0 x; ys ← Array_map (f ∘ S) l'; mret (y :: ys)
  end.

Definition sqlForPartialUpdate (dataToUpdate jsToSql : Ref) : M PartialUpdate :=
  keys ← Object_keys dataToUpdate;
  if (List.length keys =? 0)%nat then throw (BadRequestError "No data") else
  cols ← Array_map (λ idx colName,
            entry ← getProp jsToSql colName;
            mret (dquote +:+ toString (jsOr entry (JStr colName)) +:+ dquote
                    +:+ "=$" +:+ pretty (idx + 1))) keys;
  vals ← Object_values dataToUpdate;
  mret {| setCols := String.concat ", " cols; values := vals |}.

(** *** models/job.js: [Job.update(id, data)]

    The statement is a template literal that runs over eight source lines;
    [querySql] keeps its line breaks and its blanks, those at the ends of
    lines included. *)
Definition querySql (setCols id : string) : string :=
  "UPDATE jobs" +:+ nl +:+
  "                      SET " +:+ setCols +:+ " " +:+ nl +:+
  "                      WHERE id = " +:+ id +:+ " " +:+ nl +:+
  "                      RETURNING id, " +:+ nl +:+
  "                                title, " +:+ nl +:+
  "                                salary, " +:+ nl +:+
  "                                equity," +:+ nl +:+
  "                                company_handle AS " +:+ dquote +:+ "companyHandle" +:+ dquote.

(** [data] is to hold an object: the object literal passed to the builder
    is allocated at the first free reference, so here a reference holding
    nothing does not stand for [undefined]. *)
Definition Job_update (id : JsValue) (data : Ref) : M JsObject :=
  jsToSql ← alloc [("companyHandle", JStr "company_handle")];
  r ← sqlForPartialUpdate data jsToSql;
  result ← db_query (querySql (setCols r) (toString id)) (values r);
  match result with
  | job :: _ => mret job
  | [] => throw (NotFoundError ("No job with id: " +:+ toString id))
  end.

End Effects.

(** *** Column names

    [specColumn] is the rule in the specification's words: the table's entry
    for [k] if [k] is present in the table, else [k] itself.  The code's rule
    is [resolvedColumn]. *)
Definition specColumn (t : JsObject) (k : string) : string :=
  match getOwnProperty t k with
  | Some entry => toString entry
  | None => k
  end.

(** ** Reading the store

    Two notions used to state what a call does to the store and what its
    result depends on. *)

(** A command is read-only when it hands back the world it was given. *)
Definition readonly {A} (c : Effects.M A) : Prop := ∀ w, (Effects.run c w).2 = w.

(** What a call returns, as a function of what its two references hold. *)
Definition outcome (data table : option JsObject) : Completion PartialUpdate :=
  match data, table with
  | None, _ => Throw Effects.notAnObject
  | Some [], _ => Throw (BadRequestError "No data")
  | Some ((k, _) :: _), None => Throw (Effects.cannotRead k)
  | Some m, Some t => sqlForPartialUpdate m t
  end.

(** ** Inputs of the examples *)

(** The two inputs of the specification's examples. *)
Definition aliya : JsObject := [("firstName", JStr "Aliya"); ("age", JNum 32)].
Definition aliyaNames : JsObject := [("firstName", JStr "first_name")].
Definition ibm : JsObject := [("companyHandle", JStr "ibm")].
Definition ibmNames : JsObject := [("companyHandle", JStr "company_handle")].

(** Two stores for the examples: they hold the same field map and the same
    table at different references, beside other objects, with different
    logs and databases. *)
Definition store1 : Effects.World :=
  Effects.mkWorld {[ 1 := aliya; 2 := aliyaNames ]} [] (λ _ _, []).
Definition store2 : Effects.World :=
  Effects.mkWorld {[ 3 := ibm; 7 := aliya; 9 := aliyaNames ]}
    [("SELECT * FROM jobs ORDER BY id", [])] (λ _ _, [ibm]).

(** A store holding the body of a PATCH request at reference 0, with a
    database that answers every statement with one row. *)
Definition engineer : JsObject :=
  [("id", JNum 1); ("title", JStr "Engineer"); ("salary", JNum 100);
   ("equity", JStr "0"); ("companyHandle", JStr "ibm")].
Definition patchStore : Effects.World :=
  Effects.mkWorld {[ 0 := [("title", JStr "Engineer")] ]} [] (λ _ _, [engineer]).

(** ** models/job.js: the other methods of [Job]

    The methods run over the same store as [Effects.Job_update].  Within one
    call no statement is sent twice, so the answers [Effects.db_rows] gives
    stand for those of any database, whatever its state.  A statement sent
    without values ([Job.findAll]) is logged with the empty list. *)

Module Job.

(** Destructuring the parameter [{ title, ... }] of an [undefined] argument. *)
Definition cannotDestructure (k : string) : JsError :=
  TypeError ("Cannot destructure property '" +:+ k
               +:+ "' of 'undefined' as it is undefined.").

Definition checkSql : string :=
  "SELECT company_handle" +:+ nl +:+
  "            FROM jobs" +:+ nl +:+
  "            WHERE company_handle = $1".

Definition insertSql : string :=
  "INSERT INTO jobs" +:+ nl +:+
  "          ( title, salary, equity, company_handle)" +:+ nl +:+
  "          VALUES ($1, $2, $3, $4)" +:+ nl +:+
  "          RETURNING id, title, salary, equity, company_handle AS "
    +:+ dquote +:+ "companyHandle" +:+ dquote.

Definition findAllSql : string := "SELECT * FROM jobs ORDER BY id".

Definition getSql : string := "SELECT * FROM jobs WHERE id = $1".

Definition removeSql : string :=
  "DELETE" +:+ nl +:+
  "           FROM jobs" +:+ nl +:+
  "           WHERE id = $1" +:+ nl +:+
  "           RETURNING id".

(** [Job.create({ title, salary, equity, companyHandle })]; the result is
    [result.rows[0]], which is [undefined] ([None]) when the INSERT answers
    no row. *)
Definition create (data : Effects.Ref) : Effects.M (option JsObject) :=
  o ← Effects.deref data (cannotDestructure "title");
  let title := jsGet o "title" in
  let salary := jsGet o "salary" in
  let equity := jsGet o "equity" in
  let companyHandle := jsGet o "companyHandle" in
  companyHandleCheck ← Effects.db_query checkSql [companyHandle];
  match companyHandleCheck with
  | [] =>
      Effects.throw (NotFoundError
        ("No company found with given companyHandle: " +:+ toString companyHandle))
  | _ :: _ =>
      result ← Effects.db_query insertSql [title; salary; equity; companyHandle];
      mret (head result)
  end.

(** [Job.findAll()] *)
Definition findAll : Effects.M (list JsObject) :=
  Effects.db_query findAllSql [].

(** [Job.get(id)] *)
Definition get (id : JsValue) : Effects.M JsObject :=
  jobRes ← Effects.db_query getSql [id];
  match jobRes with
  | job :: _ => mret job
  | [] => Effects.throw (NotFoundError ("No job with id : " +:+ toString id))
  end.

(** [Job.remove(id)]; returns [undefined]. *)
Definition remove (id : JsValue) : Effects.M unit :=
  result ← Effects.db_query removeSql [id];
  match result with
  | _ :: _ => mret ()
  | [] => Effects.throw (NotFoundError ("No job: " +:+ toString id))
  end.

End Job.

(** The statements a command sends when run from [w]: what it adds to the
    log. *)
Definition sent {A} (c : Effects.M A) (w : Effects.World)
  : list (string * list JsValue) :=
  drop (length (Effects.queries w)) (Effects.queries (Effects.run c w).2).

(** Stores for the examples of the edge cases: an empty request body at
    reference 0 and nothing at reference 1; a job to create at reference 0
    with a database that knows no company; the same with a database that
    answers every statement with the row [engineer]. *)
Definition emptyBodyStore : Effects.World :=
  Effects.mkWorld {[ 0 := [] ]} [] (λ _ _, [engineer]).
Definition newJob : JsObject :=
  [("title", JStr "Engineer"); ("salary", JNum 100); ("companyHandle", JStr "ibm")].
Definition noCompanyStore : Effects.World :=
  Effects.mkWorld {[ 0 := newJob ]} [] (λ _ _, []).
Definition createStore : Effects.World :=
  Effects.mkWorld {[ 0 := newJob ]} [] (λ _ _, [engineer]).

(** * Properties *)

(** ** The builder on the contents of its arguments *)

Section Builder.

Implicit Types (m t : JsObject) (k : string) (i : nat) (v : JsValue).

Lemma Object_keys_length m : length (Object_keys m) = length m.
Proof. unfold Object_keys. apply length_fmap. Qed.

Lemma Object_values_length m : length (Object_values m) = length m.
Proof. unfold Object_values. apply length_fmap. Qed.

Lemma sqlForPartialUpdate_empty t :
  sqlForPartialUpdate [] t = Throw (BadRequestError "No data").
Proof. reflexivity. Qed.

Lemma sqlForPartialUpdate_nonempty m t :
  m ≠ [] →
  sqlForPartialUpdate m t =
    Return {| setCols := String.concat ", " (cols (Object_keys m) t);
              values := Object_values m |}.
Proof. by destruct m. Qed.

Lemma cols_length (keys : list string) t : length (cols keys t) = length keys.
Proof. unfold cols. apply length_imap. Qed.

Lemma cols_lookup (keys : list string) t i k :
  keys !! i = Some k → cols keys t !! i = Some (colFragment t i k).
Proof. intros Hk. unfold cols. by rewrite list_lookup_imap, Hk. Qed.

(** With distinct keys, the property at position [i] is the one its key
    names. *)
Lemma getOwnProperty_lookup m i k v :
  wf_object m → m !! i = Some (k, v) → getOwnProperty m k = Some v.
Proof.
  unfold wf_object. revert i.
  induction m as [|[k' v'] m IH]; intros i Hnd Hi; [done|].
  apply NoDup_cons in Hnd as [Hnotin Hnd]. destruct i as [|i]; simpl in *.
  - injection Hi as -> ->. by rewrite String.eqb_refl.
  - destruct (String.eqb_spec k' k) as [->|_]; [|by eapply IH].
    exfalso. apply Hnotin. apply list_elem_of_fmap. exists (k, v).
    split; [done|]. by eapply list_elem_of_lookup_2.
Qed.

Lemma jsGet_own m k v : getOwnProperty m k = Some v → jsGet m k = v.
Proof. intros H. unfold jsGet. by rewrite H. Qed.

End Builder.

(** C1. For a non-empty field map [m] the call returns, and its clause is
    the [", "]-join of exactly [length m] fragments; the fragment at position
    [i] (counting from 0, in the order [m] enumerates its keys) is the
    resolved column of the key at [i] between double quotes, followed by
    [=$] and the number [i + 1]. *)
Theorem clause_is_joined_fragments (m t : JsObject) :
  m ≠ [] →
  ∃ out frags,
    sqlForPartialUpdate m t = Return out ∧
    setCols out = String.concat ", " frags ∧
    length frags = length m ∧
    ∀ i k, Object_keys m !! i = Some k →
      frags !! i =
        Some (dquote +:+ resolvedColumn t k +:+ dquote +:+ "=$" +:+ pretty (i + 1)).
Proof.
  intros Hm. eexists _, (cols (Object_keys m) t).
  split; [by apply sqlForPartialUpdate_nonempty|].
  split; [done|]. split.
  - by rewrite cols_length, Object_keys_length.
  - intros i k Hk. by apply cols_lookup.
Qed.

Lemma clause_is_joined_fragments_witness :
  ∃ out frags,
    sqlForPartialUpdate aliya aliyaNames = Return out ∧
    setCols out = String.concat ", " frags ∧
    length frags = length aliya ∧
    ∀ i k, Object_keys aliya !! i = Some k →
      frags !! i =
        Some (dquote +:+ resolvedColumn aliyaNames k +:+ dquote +:+ "=$" +:+ pretty (i + 1)).
Proof. apply (clause_is_joined_fragments aliya aliyaNames). discriminate. Defined.

(** C2. For a non-empty field map [m] (an object: its keys are distinct) the
    returned values are as many as [m] has entries, and the value at
    position [i] is [m[k]] for the key [k] that [m] enumerates at [i]. *)
Theorem values_follow_keys (m t : JsObject) :
  m ≠ [] → wf_object m →
  ∃ out,
    sqlForPartialUpdate m t = Return out ∧
    length (values out) = length m ∧
    ∀ i k, Object_keys m !! i = Some k → values out !! i = Some (jsGet m k).
Proof.
  intros Hm Hwf. eexists. split; [by apply sqlForPartialUpdate_nonempty|].
  simpl. split; [apply Object_values_length|].
  intros i k Hk. unfold Object_keys, Object_values in *.
  rewrite list_lookup_fmap in Hk. rewrite list_lookup_fmap.
  destruct (m !! i) as [[k' v]|] eqn:Hi; simplify_eq/=.
  by rewrite (jsGet_own m k v (getOwnProperty_lookup m i k v Hwf Hi)).
Qed.

Lemma values_follow_keys_witness :
  ∃ out,
    sqlForPartialUpdate aliya aliyaNames = Return out ∧
    length (values out) = length aliya ∧
    ∀ i k, Object_keys aliya !! i = Some k → values out !! i = Some (jsGet aliya k).
Proof.
  apply (values_follow_keys aliya aliyaNames); [discriminate|].
  unfold wf_object. apply (bool_decide_unpack _). vm_compute. exact I.
Defined.

(** On the contents of the arguments, both of them objects: the call
    throws [BadRequestError "No data"] exactly when the field map is empty;
    it throws nothing else, and on a non-empty field map it returns. *)
Theorem no_data_iff_empty (m t : JsObject) :
  (sqlForPartialUpdate m t = Throw (BadRequestError "No data") ↔ m = []) ∧
  (∀ e, sqlForPartialUpdate m t = Throw e → e = BadRequestError "No data" ∧ m = []) ∧
  (m ≠ [] → ∃ out, sqlForPartialUpdate m t = Return out).
Proof.
  destruct m as [|p m].
  - split; [done|]. split; [|done]. intros e He.
    rewrite sqlForPartialUpdate_empty in He. by injection He as <-.
  - rewrite sqlForPartialUpdate_nonempty by done.
    split; [split; discriminate|]. split; [discriminate|]. eauto.
Qed.

(** C6. The two examples of the specification. *)
Theorem examples_aliya_and_ibm :
  sqlForPartialUpdate aliya aliyaNames =
    Return {| setCols := dquote +:+ "first_name" +:+ dquote +:+ "=$1, "
                           +:+ dquote +:+ "age" +:+ dquote +:+ "=$2";
              values := [JStr "Aliya"; JNum 32] |} ∧
  sqlForPartialUpdate ibm ibmNames =
    Return {| setCols := dquote +:+ "company_handle" +:+ dquote +:+ "=$1";
              values := [JStr "ibm"] |}.
Proof. split; vm_compute; reflexivity. Qed.

(** C9. The clause does not depend on the values: two non-empty field maps
    that enumerate the same keys give the same clause. *)
Theorem clause_ignores_values (m1 m2 t : JsObject) :
  m1 ≠ [] → m2 ≠ [] → Object_keys m1 = Object_keys m2 →
  ∃ out1 out2,
    sqlForPartialUpdate m1 t = Return out1 ∧
    sqlForPartialUpdate m2 t = Return out2 ∧
    setCols out1 = setCols out2.
Proof.
  intros H1 H2 Hkeys. eexists _, _.
  split; [by apply sqlForPartialUpdate_nonempty|].
  split; [by apply sqlForPartialUpdate_nonempty|].
  simpl. by rewrite Hkeys.
Qed.

Lemma clause_ignores_values_witness :
  ∃ out1 out2,
    sqlForPartialUpdate aliya aliyaNames = Return out1 ∧
    sqlForPartialUpdate [("firstName", JNull); ("age", JStr "x' OR 1=1")] aliyaNames
      = Return out2 ∧
    setCols out1 = setCols out2.
Proof.
  apply (clause_ignores_values aliya
           [("firstName", JNull); ("age", JStr "x' OR 1=1")] aliyaNames);
    [discriminate | discriminate | reflexivity].
Defined.

(** C10. Translation entries for keys the field map does not have are
    ignored: two tables with the same own entry (or none) at every key of a
    non-empty field map give the same output. *)
Theorem unused_translations_ignored (m t1 t2 : JsObject) :
  m ≠ [] →
  Forall (λ k, getOwnProperty t1 k = getOwnProperty t2 k) (Object_keys m) →
  sqlForPartialUpdate m t1 = sqlForPartialUpdate m t2.
Proof.
  intros Hm Hagree. rewrite !sqlForPartialUpdate_nonempty by done.
  do 3 f_equal. unfold cols. apply imap_ext. intros i k Hk.
  rewrite Forall_lookup in Hagree. specialize (Hagree i k Hk).
  unfold colFragment, resolvedColumn, jsGet. by rewrite Hagree.
Qed.

Lemma unused_translations_ignored_witness :
  sqlForPartialUpdate ibm ibmNames =
  sqlForPartialUpdate ibm [("logoUrl", JStr "logo_url");
                           ("companyHandle", JStr "company_handle");
                           ("numEmployees", JStr "num_employees")].
Proof.
  apply (unused_translations_ignored ibm); [discriminate|].
  apply (bool_decide_unpack _). vm_compute. exact I.
Defined.

(** C3, as stated, fails twice.  An entry that is present but falsy (here
    the empty string) is passed over by [||], and the column is the key; a
    key that the table does not have but every object inherits (here
    [constructor]) resolves to the inherited member. *)
Lemma specColumn_counterexample :
  (getOwnProperty [("salary", JStr "")] "salary" = Some (JStr "") ∧
   sqlForPartialUpdate [("salary", JNum 10)] [("salary", JStr "")] =
     Return {| setCols := dquote +:+ "salary" +:+ dquote +:+ "=$1";
               values := [JNum 10] |} ∧
   resolvedColumn [("salary", JStr "")] "salary"
     ≠ specColumn [("salary", JStr "")] "salary") ∧
  (getOwnProperty [] "constructor" = None ∧
   sqlForPartialUpdate [("constructor", JNum 10)] [] =
     Return {| setCols := dquote +:+ "function Object() { [native code] }"
                            +:+ dquote +:+ "=$1";
               values := [JNum 10] |} ∧
   resolvedColumn [] "constructor" ≠ specColumn [] "constructor").
Proof. repeat split; try (vm_compute; reflexivity); vm_compute; discriminate. Qed.

(** C3, amended.  For the key [k] at position [i] of the field map, the
    column in fragment [i] of the clause is: the string of the table's entry
    for [k] when that entry is truthy; [k] itself when the entry is falsy;
    and [k] itself when the table has no entry for [k] and [k] is not a name
    inherited from [Object.prototype]. *)
Theorem column_resolution (m t : JsObject) (i : nat) (k : string) :
  Object_keys m !! i = Some k →
  ∃ out col,
    sqlForPartialUpdate m t = Return out ∧
    setCols out = String.concat ", " (cols (Object_keys m) t) ∧
    cols (Object_keys m) t !! i =
      Some (dquote +:+ col +:+ dquote +:+ "=$" +:+ pretty (i + 1)) ∧
    match getOwnProperty t k with
    | Some entry => col = if truthy entry then toString entry else k
    | None => getOwnProperty Object_prototype k = None → col = k
    end.
Proof.
  intros Hk. assert (m ≠ []) as Hm by (by intros ->).
  eexists _, (resolvedColumn t k).
  split; [by apply sqlForPartialUpdate_nonempty|]. split; [done|].
  split; [by apply cols_lookup|].
  unfold resolvedColumn, jsGet, jsOr.
  destruct (getOwnProperty t k) as [entry|].
  - by destruct (truthy entry).
  - by intros ->.
Qed.

Lemma column_resolution_witness :
  ∃ out col,
    sqlForPartialUpdate aliya [("firstName", JStr "first_name"); ("age", JNum 0)]
      = Return out ∧
    setCols out = String.concat ", "
      (cols (Object_keys aliya) [("firstName", JStr "first_name"); ("age", JNum 0)]) ∧
    cols (Object_keys aliya) [("firstName", JStr "first_name"); ("age", JNum 0)] !! 1 =
      Some (dquote +:+ col +:+ dquote +:+ "=$" +:+ pretty (1 + 1)) ∧
    col = "age".
Proof.
  apply (column_resolution aliya
           [("firstName", JStr "first_name"); ("age", JNum 0)] 1 "age").
  reflexivity.
Defined.

(** ** The builder over the store *)

Section Store.

Implicit Types (w : Effects.World) (d j r : Effects.Ref).

Lemma readonly_ret {A} (a : A) : readonly (mret a).
Proof. by intros w. Qed.

Lemma readonly_throw {A} (e : JsError) : readonly (@Effects.throw A e).
Proof. by intros w. Qed.

Lemma readonly_deref r (e : JsError) : readonly (Effects.deref r e).
Proof. intros w. unfold Effects.run, Effects.deref. by destruct (Effects.heap w !! r). Qed.

Lemma readonly_bind {A B} (c : Effects.M A) (f : A → Effects.M B) :
  readonly c → (∀ a, readonly (f a)) → readonly (c ≫= f).
Proof.
  intros Hc Hf w. specialize (Hc w). unfold Effects.run, mbind, Effects.M_bind in *.
  destruct (c w) as [[a|e] w']; simpl in Hc; rewrite Hc; [apply Hf | done].
Qed.

Lemma readonly_Array_map {A B} (f : nat → A → Effects.M B) (l : list A) :
  (∀ i x, readonly (f i x)) → readonly (Effects.Array_map f l).
Proof.
  revert f. induction l as [|x l IH]; intros f Hf; simpl.
  - apply readonly_ret.
  - apply readonly_bind; [apply Hf|]. intros y.
    apply readonly_bind; [apply IH; intros i z; apply Hf|].
    intros ys. apply readonly_ret.
Qed.

(** Allocation and database calls are not read-only: the notion separates
    the builder from its caller. *)
Lemma alloc_changes_heap w (o : JsObject) :
  Effects.heap (Effects.run (Effects.alloc o) w).2 ≠ Effects.heap w.
Proof.
  unfold Effects.run, Effects.alloc; simpl. intros Heq.
  pose proof (is_fresh (dom (Effects.heap w))) as Hfresh.
  apply not_elem_of_dom in Hfresh.
  apply (f_equal (λ h, h !! fresh (dom (Effects.heap w)))) in Heq.
  rewrite lookup_insert_eq in Heq. congruence.
Qed.

Lemma db_query_is_logged w (sql : string) (params : list JsValue) :
  Effects.queries (Effects.run (Effects.db_query sql params) w).2 =
    (Effects.queries w ++ [(sql, params)])%list.
Proof. reflexivity. Qed.

(** Running a sequence. *)
Lemma run_bind_Return {A B} (c : Effects.M A) (f : A → Effects.M B) w a w' :
  Effects.run c w = (Return a, w') →
  Effects.run (c ≫= f) w = Effects.run (f a) w'.
Proof. unfold Effects.run, mbind, Effects.M_bind. by intros ->. Qed.

Lemma run_bind_Throw {A B} (c : Effects.M A) (f : A → Effects.M B) w e w' :
  Effects.run c w = (Throw e, w') →
  Effects.run (c ≫= f) w = (Throw e, w').
Proof. unfold Effects.run, mbind, Effects.M_bind. by intros ->. Qed.

Lemma run_deref_Some w r (e : JsError) (o : JsObject) :
  Effects.heap w !! r = Some o → Effects.run (Effects.deref r e) w = (Return o, w).
Proof. unfold Effects.run, Effects.deref. by intros ->. Qed.

Lemma run_deref_None w r (e : JsError) :
  Effects.heap w !! r = None → Effects.run (Effects.deref r e) w = (Throw e, w).
Proof. unfold Effects.run, Effects.deref. by intros ->. Qed.

Lemma run_getProp w r (o : JsObject) (k : string) :
  Effects.heap w !! r = Some o →
  Effects.run (Effects.getProp r k) w = (Return (jsGet o k), w).
Proof.
  intros Hr. unfold Effects.getProp.
  by rewrite (run_bind_Return _ _ w o w (run_deref_Some w r _ o Hr)).
Qed.

(** [keys.map] with a callback that returns without touching the store
    computes the list [imap] does. *)
Lemma run_Array_map {A B} (f : nat → A → Effects.M B) (g : nat → A → B)
    (l : list A) w :
  (∀ i x, Effects.run (f i x) w = (Return (g i x), w)) →
  Effects.run (Effects.Array_map f l) w = (Return (imap g l), w).
Proof.
  revert f g. induction l as [|x l IH]; intros f g Hfg; [done|].
  cbn [Effects.Array_map imap].
  rewrite (run_bind_Return _ _ w (g 0 x) w (Hfg 0 x)).
  rewrite (run_bind_Return _ _ w (imap (g ∘ S) l) w);
    [done | apply IH; intros i y; apply Hfg].
Qed.

Lemma outcome_Some (m t : JsObject) :
  outcome (Some m) (Some t) = sqlForPartialUpdate m t.
Proof. by destruct m as [|[k v] m]. Qed.

Lemma run_sqlForPartialUpdate w d j :
  Effects.run (Effects.sqlForPartialUpdate d j) w =
    (outcome (Effects.heap w !! d) (Effects.heap w !! j), w).
Proof.
  unfold Effects.sqlForPartialUpdate, Effects.Object_keys, Effects.Object_values.
  destruct (Effects.heap w !! d) as [m|] eqn:Hd.
  2:{ erewrite run_bind_Throw; [done|].
      erewrite run_bind_Throw; [done|]. by apply run_deref_None. }
  pose proof (run_deref_Some w d Effects.notAnObject m Hd) as Hm.
  erewrite run_bind_Return;
    [|by erewrite run_bind_Return; [|exact Hm]].
  destruct m as [|[k v] m]; [done|].
  cbn [length fmap list_fmap Nat.eqb].
  destruct (Effects.heap w !! j) as [t|] eqn:Hj.
  - erewrite run_bind_Return.
    2:{ apply (run_Array_map _ (colFragment t)). intros i x.
        erewrite run_bind_Return; [|by apply run_getProp]. done. }
    erewrite run_bind_Return;
      [|by erewrite run_bind_Return; [|exact Hm]].
    done.
  - erewrite run_bind_Throw; [done|]. cbn [Effects.Array_map].
    erewrite run_bind_Throw; [done|].
    erewrite run_bind_Throw; [done|].
    unfold Effects.getProp.
    erewrite run_bind_Throw; [done|]. by apply run_deref_None.
Qed.

End Store.

(** C7. The call is deterministic: what it returns (or throws) is decided
    by what its two arguments hold.  Two calls whose arguments hold the same
    field map and the same table give the same result, whatever else the
    stores hold and whichever references are used; in particular a second
    call made after a first one. *)
Theorem sqlForPartialUpdate_deterministic
    (w1 w2 : Effects.World) (d1 j1 d2 j2 : Effects.Ref) :
  Effects.heap w1 !! d1 = Effects.heap w2 !! d2 →
  Effects.heap w1 !! j1 = Effects.heap w2 !! j2 →
  (Effects.run (Effects.sqlForPartialUpdate d1 j1) w1).1 =
  (Effects.run (Effects.sqlForPartialUpdate d2 j2) w2).1.
Proof. intros Hd Hj. rewrite !run_sqlForPartialUpdate. simpl. by rewrite Hd, Hj. Qed.

Lemma sqlForPartialUpdate_deterministic_witness :
  (Effects.run (Effects.sqlForPartialUpdate 1 2) store1).1 =
  (Effects.run (Effects.sqlForPartialUpdate 7 9) store2).1.
Proof.
  apply (sqlForPartialUpdate_deterministic store1 store2 1 2 7 9);
    vm_compute; reflexivity.
Defined.

(** C8. The call is pure.  From every store it hands back the very store
    it was given: the heap, and with it both arguments (same keys, same
    values, same order), and the log of statements sent to the database are
    as before, on the throwing paths too.  When the arguments hold a field
    map [m] and a table [t], its result is the builder on [m] and [t]. *)
Theorem sqlForPartialUpdate_pure (dataToUpdate jsToSql : Effects.Ref) :
  readonly (Effects.sqlForPartialUpdate dataToUpdate jsToSql) ∧
  ∀ (w : Effects.World) (m t : JsObject),
    Effects.heap w !! dataToUpdate = Some m →
    Effects.heap w !! jsToSql = Some t →
    Effects.run (Effects.sqlForPartialUpdate dataToUpdate jsToSql) w =
      (sqlForPartialUpdate m t, w).
Proof.
  split.
  - unfold Effects.sqlForPartialUpdate, Effects.Object_keys,
      Effects.Object_values, Effects.getProp.
    apply readonly_bind.
    { apply readonly_bind; [apply readonly_deref | intros; apply readonly_ret]. }
    intros keys. destruct (length keys =? 0)%nat; [apply readonly_throw|].
    apply readonly_bind.
    { apply readonly_Array_map. intros idx colName.
      apply readonly_bind; [|intros; apply readonly_ret].
      apply readonly_bind; [apply readonly_deref | intros; apply readonly_ret]. }
    intros cols. apply readonly_bind; [|intros; apply readonly_ret].
    apply readonly_bind; [apply readonly_deref | intros; apply readonly_ret].
  - intros w m t Hd Hj.
    by rewrite run_sqlForPartialUpdate, Hd, Hj, outcome_Some.
Qed.

(** C4, as stated, fails where the translation table is left out: the
    field map [aliya] is not empty, and the call throws a [TypeError] at the
    read of its first key, [jsToSql["firstName"]]. *)
Lemma no_error_counterexample :
  Effects.heap store1 !! 1 = Some aliya ∧
  aliya ≠ [] ∧
  Effects.heap store1 !! 5 = None ∧
  Effects.run (Effects.sqlForPartialUpdate 1 5) store1 =
    (Throw (TypeError "Cannot read properties of undefined (reading 'firstName')"),
     store1).
Proof. repeat split; try discriminate; vm_compute; reflexivity. Qed.

(** C4, amended.  The call throws [BadRequestError "No data"] exactly when
    the field map is empty, whatever its second argument is; it throws no
    [BadRequestError] with another message; a throw carries no output (a
    [Completion] is either) and leaves the store as it was; and on a
    non-empty field map with a translation table that is an object it throws
    nothing: it returns what the builder gives on the two objects. *)
Theorem bad_request_iff_empty (w : Effects.World) (dataToUpdate jsToSql : Effects.Ref) :
  ((Effects.run (Effects.sqlForPartialUpdate dataToUpdate jsToSql) w).1 =
     Throw (BadRequestError "No data")
   ↔ Effects.heap w !! dataToUpdate = Some []) ∧
  (∀ message,
     (Effects.run (Effects.sqlForPartialUpdate dataToUpdate jsToSql) w).1 =
       Throw (BadRequestError message) →
     message = "No data") ∧
  (Effects.run (Effects.sqlForPartialUpdate dataToUpdate jsToSql) w).2 = w ∧
  (∀ m t : JsObject,
     Effects.heap w !! dataToUpdate = Some m → m ≠ [] →
     Effects.heap w !! jsToSql = Some t →
     ∃ out,
       (Effects.run (Effects.sqlForPartialUpdate dataToUpdate jsToSql) w).1 = Return out ∧
       sqlForPartialUpdate m t = Return out).
Proof.
  rewrite run_sqlForPartialUpdate. cbn [fst snd].
  split; [|split; [|split; [done|]]].
  - destruct (Effects.heap w !! dataToUpdate) as [[|[k v] m]|];
      destruct (Effects.heap w !! jsToSql) as [t|]; cbn [outcome];
      try rewrite sqlForPartialUpdate_nonempty by done;
      split; intros; simplify_eq; done.
  - intros message.
    destruct (Effects.heap w !! dataToUpdate) as [[|[k v] m]|];
      destruct (Effects.heap w !! jsToSql) as [t|]; cbn [outcome];
      try rewrite sqlForPartialUpdate_nonempty by done;
      intros; simplify_eq; done.
  - intros m t -> Hm ->. rewrite outcome_Some.
    rewrite sqlForPartialUpdate_nonempty by done. by eexists.
Qed.

(** ** models/job.js *)

(** The statement [Job.update] sends for a non-empty [data]: the clause of
    the builder, the text of [id] written into the statement, and the
    builder's values as the only parameters. *)
Lemma Job_update_query (w : Effects.World) (id : JsValue) (data : Effects.Ref)
    (m : JsObject) :
  Effects.heap w !! data = Some m → m ≠ [] →
  Effects.queries (Effects.run (Effects.Job_update id data) w).2 =
    (Effects.queries w ++
      [(Effects.querySql
          (String.concat ", " (cols (Object_keys m) ibmNames)) (toString id),
        Object_values m)])%list.
Proof.
  intros Hd Hm. unfold Effects.Job_update.
  set (w' := (Effects.run (Effects.alloc ibmNames) w).2).
  set (r := fresh (dom (Effects.heap w))).
  assert (Effects.heap w' !! data = Some m) as Hd'.
  { subst w' r. cbn. rewrite lookup_insert_ne; [done|].
    intros <-. by apply (is_fresh (dom (Effects.heap w))), elem_of_dom. }
  assert (Effects.heap w' !! r = Some ibmNames) as Hr.
  { subst w' r. cbn. apply lookup_insert_eq. }
  rewrite (run_bind_Return _ _ w r w') by done.
  pose proof (run_sqlForPartialUpdate w' data r) as Hsql.
  rewrite Hd', Hr, outcome_Some, sqlForPartialUpdate_nonempty in Hsql by done.
  erewrite run_bind_Return; [|exact Hsql]. cbn [setCols values].
  erewrite run_bind_Return; [|reflexivity].
  destruct (Effects.db_rows _ _ _) as [|job rows]; reflexivity.
Qed.

(** C5 does not hold of [Job.update].  For the path parameter [1 OR 1=1]
    and a body of one field, the statement sent has the parameter's text
    after [WHERE id = ] and no [$2], and the parameters are the builder's
    one value: nothing is appended. *)
Theorem Job_update_splices_id :
  (Effects.run (Effects.Job_update (JStr "1 OR 1=1") 0) patchStore).1 = Return engineer ∧
  Effects.queries (Effects.run (Effects.Job_update (JStr "1 OR 1=1") 0) patchStore).2 =
    [("UPDATE jobs" +:+ nl +:+
      "                      SET " +:+ dquote +:+ "title" +:+ dquote +:+ "=$1 " +:+ nl +:+
      "                      WHERE id = 1 OR 1=1 " +:+ nl +:+
      "                      RETURNING id, " +:+ nl +:+
      "                                title, " +:+ nl +:+
      "                                salary, " +:+ nl +:+
      "                                equity," +:+ nl +:+
      "                                company_handle AS " +:+ dquote +:+ "companyHandle" +:+ dquote,
      [JStr "Engineer"])].
Proof. split; vm_compute; reflexivity. Qed.

(** * Further properties of the code *)

(** ** helpers/sql.js *)

Lemma string_app_assoc (s1 s2 s3 : string) :
  (s1 +:+ s2) +:+ s3 = s1 +:+ s2 +:+ s3.
Proof.
  induction s1 as [|c s1 IH]; [done|].
  change (String c ((s1 +:+ s2) +:+ s3) = String c (s1 +:+ s2 +:+ s3)).
  by rewrite IH.
Qed.

(** [join] after one more element. *)
Lemma concat_snoc (sep x : string) (l : list string) :
  l ≠ [] → String.concat sep (l ++ [x]) = String.concat sep l +:+ sep +:+ x.
Proof.
  induction l as [|y l IH]; [done|]. intros _.
  destruct l as [|z l]; [done|].
  change (String.concat sep ((y :: z :: l) ++ [x]))
    with (y +:+ sep +:+ String.concat sep ((z :: l) ++ [x])).
  rewrite IH by done.
  change (String.concat sep (y :: z :: l))
    with (y +:+ sep +:+ String.concat sep (z :: l)).
  by rewrite !string_app_assoc.
Qed.

(** X1. One more field at the end of a field map leaves what was built for
    the fields before it as it was: the clause gains [", "] and one fragment,
    numbered one past the fields there were, and the values gain the new
    value at the end. *)
Theorem one_more_field (m t : JsObject) (k : string) (v : JsValue)
    (out : PartialUpdate) :
  sqlForPartialUpdate m t = Return out →
  sqlForPartialUpdate (m ++ [(k, v)]) t =
    Return {| setCols := setCols out +:+ ", " +:+ dquote +:+ resolvedColumn t k
                           +:+ dquote +:+ "=$" +:+ pretty (length m + 1);
              values := values out ++ [v] |}.
Proof.
  intros Hout. assert (m ≠ []) as Hm by (by intros ->).
  rewrite sqlForPartialUpdate_nonempty in Hout by done. injection Hout as <-.
  rewrite sqlForPartialUpdate_nonempty by (by destruct m).
  unfold Object_keys, Object_values, cols. rewrite !fmap_app, imap_app.
  cbn [fmap list_fmap imap setCols values fst snd].
  rewrite concat_snoc by (by destruct m).
  rewrite length_fmap. unfold compose. by rewrite Nat.add_0_r.
Qed.

Lemma one_more_field_witness :
  sqlForPartialUpdate (aliya ++ [("companyHandle", JStr "ibm")]) ibmNames =
    Return {| setCols := (dquote +:+ "firstName" +:+ dquote +:+ "=$1, "
                            +:+ dquote +:+ "age" +:+ dquote +:+ "=$2")
                           +:+ ", " +:+ dquote +:+ resolvedColumn ibmNames "companyHandle"
                           +:+ dquote +:+ "=$" +:+ pretty (length aliya + 1);
              values := [JStr "Aliya"; JNum 32] ++ [JStr "ibm"] |}.
Proof.
  apply (one_more_field aliya ibmNames "companyHandle" (JStr "ibm")
           {| setCols := dquote +:+ "firstName" +:+ dquote +:+ "=$1, "
                           +:+ dquote +:+ "age" +:+ dquote +:+ "=$2";
              values := [JStr "Aliya"; JNum 32] |}).
  vm_compute. reflexivity.
Defined.

(** Every member of [Object.prototype] is truthy, and none converts to
    its own name. *)
Lemma Object_prototype_member (k : string) (member : JsValue) :
  getOwnProperty Object_prototype k = Some member →
  truthy member = true ∧ toString member ≠ k.
Proof.
  unfold Object_prototype. cbn [getOwnProperty]. intros Hk.
  repeat match type of Hk with
  | (if String.eqb ?name k then _ else _) = _ =>
      destruct (String.eqb_spec name k) as [<-|_];
        [injection Hk as <-; split; [reflexivity | vm_compute; discriminate] |]
  end.
  discriminate.
Qed.

(** X2. A key that the table does not have but that every object inherits
    from [Object.prototype] does not stand for itself: its column is the
    string of the inherited member. *)
Theorem inherited_name_resolves_to_member (t : JsObject) (k : string)
    (member : JsValue) :
  getOwnProperty t k = None →
  getOwnProperty Object_prototype k = Some member →
  resolvedColumn t k = toString member ∧ resolvedColumn t k ≠ k.
Proof.
  intros Ht Hk. destruct (Object_prototype_member k member Hk) as [Htruthy Hne].
  unfold resolvedColumn, jsGet, jsOr. rewrite Ht, Hk. simpl. by rewrite Htruthy.
Qed.

Lemma inherited_name_resolves_to_member_witness :
  resolvedColumn ibmNames "toString" = "function toString() { [native code] }" ∧
  resolvedColumn ibmNames "toString" ≠ "toString".
Proof.
  apply (inherited_name_resolves_to_member ibmNames "toString"
           (nativeFunction "toString")); reflexivity.
Defined.

(** X3. The emptiness check comes before any read of the table: on an
    empty field map the call throws [BadRequestError "No data"] whether or
    not its second argument is an object, and the store is as before. *)
Theorem empty_field_map_rejected_first (w : Effects.World) (d j : Effects.Ref) :
  Effects.heap w !! d = Some [] →
  Effects.run (Effects.sqlForPartialUpdate d j) w =
    (Throw (BadRequestError "No data"), w).
Proof. intros Hd. by rewrite run_sqlForPartialUpdate, Hd. Qed.

Lemma empty_field_map_rejected_first_witness :
  Effects.run (Effects.sqlForPartialUpdate 0 1) emptyBodyStore =
    (Throw (BadRequestError "No data"), emptyBodyStore).
Proof. apply (empty_field_map_rejected_first emptyBodyStore 0 1). reflexivity. Defined.

(** X4. The table is not optional: on a non-empty field map, a second
    argument that is [undefined] makes the call throw a [TypeError] (at the
    read of the first key), with the store as before. *)
Theorem undefined_table_TypeError (w : Effects.World) (d j : Effects.Ref)
    (m : JsObject) :
  Effects.heap w !! d = Some m → m ≠ [] → Effects.heap w !! j = None →
  ∃ message,
    Effects.run (Effects.sqlForPartialUpdate d j) w = (Throw (TypeError message), w).
Proof.
  intros Hd Hm Hj. rewrite run_sqlForPartialUpdate, Hd, Hj.
  destruct m as [|[k v] m]; [done|]. by eexists.
Qed.

Lemma undefined_table_TypeError_witness :
  ∃ message,
    Effects.run (Effects.sqlForPartialUpdate 1 5) store1 =
      (Throw (TypeError message), store1).
Proof.
  apply (undefined_table_TypeError store1 1 5 aliya);
    [reflexivity | discriminate | reflexivity].
Defined.

(** X13. Without a field map there is nothing to reject as empty: a first
    argument that is [undefined] makes the call throw a [TypeError] (from
    [Object.keys]), not [BadRequestError], with the store as before. *)
Theorem undefined_field_map_TypeError (w : Effects.World) (d j : Effects.Ref) :
  Effects.heap w !! d = None →
  ∃ message,
    Effects.run (Effects.sqlForPartialUpdate d j) w = (Throw (TypeError message), w).
Proof. intros Hd. rewrite run_sqlForPartialUpdate, Hd. by eexists. Qed.

Lemma undefined_field_map_TypeError_witness :
  ∃ message,
    Effects.run (Effects.sqlForPartialUpdate 5 2) store1 =
      (Throw (TypeError message), store1).
Proof. apply (undefined_field_map_TypeError store1 5 2). reflexivity. Defined.

(** ** models/job.js *)

Section JobMethods.

Implicit Types (w : Effects.World) (data : Effects.Ref) (id : JsValue).

Lemma sent_app {A} (c : Effects.M A) w (new : list (string * list JsValue)) :
  Effects.queries (Effects.run c w).2 = (Effects.queries w ++ new)%list →
  sent c w = new.
Proof. intros Hq. unfold sent. rewrite Hq. apply drop_app_length. Qed.

Lemma run_get w id :
  Effects.run (Job.get id) w =
    (match Effects.db_rows w Job.getSql [id] with
     | job :: _ => Return job
     | [] => Throw (NotFoundError ("No job with id : " +:+ toString id))
     end,
     Effects.mkWorld (Effects.heap w)
       (Effects.queries w ++ [(Job.getSql, [id])]) (Effects.db_rows w)).
Proof.
  unfold Job.get, Effects.run, mbind, Effects.M_bind, Effects.db_query.
  by destruct (Effects.db_rows w Job.getSql [id]).
Qed.

Lemma run_remove w id :
  Effects.run (Job.remove id) w =
    (match Effects.db_rows w Job.removeSql [id] with
     | _ :: _ => Return ()
     | [] => Throw (NotFoundError ("No job: " +:+ toString id))
     end,
     Effects.mkWorld (Effects.heap w)
       (Effects.queries w ++ [(Job.removeSql, [id])]) (Effects.db_rows w)).
Proof.
  unfold Job.remove, Effects.run, mbind, Effects.M_bind, Effects.db_query.
  by destruct (Effects.db_rows w Job.removeSql [id]).
Qed.

Lemma run_create_undefined w data :
  Effects.heap w !! data = None →
  Effects.run (Job.create data) w = (Throw (Job.cannotDestructure "title"), w).
Proof.
  intros Hd. unfold Job.create.
  by rewrite (run_bind_Throw _ _ w _ w (run_deref_None w data _ Hd)).
Qed.

Lemma run_create w data (o : JsObject) :
  Effects.heap w !! data = Some o →
  Effects.run (Job.create data) w =
    match Effects.db_rows w Job.checkSql [jsGet o "companyHandle"] with
    | [] =>
        (Throw (NotFoundError ("No company found with given companyHandle: "
                                 +:+ toString (jsGet o "companyHandle"))),
         Effects.mkWorld (Effects.heap w)
           (Effects.queries w ++ [(Job.checkSql, [jsGet o "companyHandle"])])
           (Effects.db_rows w))
    | _ :: _ =>
        (Return (head (Effects.db_rows w Job.insertSql
                         [jsGet o "title"; jsGet o "salary"; jsGet o "equity";
                          jsGet o "companyHandle"])),
         Effects.mkWorld (Effects.heap w)
           (Effects.queries w ++
              [(Job.checkSql, [jsGet o "companyHandle"]);
               (Job.insertSql, [jsGet o "title"; jsGet o "salary";
                                jsGet o "equity"; jsGet o "companyHandle"])])
           (Effects.db_rows w))
    end.
Proof.
  intros Hd. unfold Job.create.
  rewrite (run_bind_Return _ _ w o w (run_deref_Some w data _ o Hd)).
  unfold Effects.run, mbind, Effects.M_bind, Effects.db_query. cbn.
  destruct (Effects.db_rows w Job.checkSql [jsGet o "companyHandle"]); [done|].
  cbn. by rewrite <- (assoc_L (++)).
Qed.

(** What [Job.update] does on a [data] that is an object.  The object
    literal it passes to the builder is allocated at a fresh reference. *)
Lemma run_Job_update w id data (m : JsObject) :
  Effects.heap w !! data = Some m →
  Effects.run (Effects.Job_update id data) w =
    match m with
    | [] =>
        (Throw (BadRequestError "No data"),
         (Effects.run (Effects.alloc ibmNames) w).2)
    | _ :: _ =>
        (match Effects.db_rows w
                 (Effects.querySql
                    (String.concat ", " (cols (Object_keys m) ibmNames))
                    (toString id))
                 (Object_values m) with
         | job :: _ => Return job
         | [] => Throw (NotFoundError ("No job with id: " +:+ toString id))
         end,
         Effects.mkWorld
           (Effects.heap (Effects.run (Effects.alloc ibmNames) w).2)
           (Effects.queries w ++
              [(Effects.querySql
                  (String.concat ", " (cols (Object_keys m) ibmNames))
                  (toString id),
                Object_values m)])
           (Effects.db_rows w))
    end.
Proof.
  intros Hd. unfold Effects.Job_update.
  set (w1 := (Effects.run (Effects.alloc ibmNames) w).2).
  set (r := fresh (dom (Effects.heap w))).
  assert (Effects.heap w1 !! data = Some m) as Hd1.
  { subst w1 r. cbn. rewrite lookup_insert_ne; [done|].
    intros <-. by apply (is_fresh (dom (Effects.heap w))), elem_of_dom. }
  assert (Effects.heap w1 !! r = Some ibmNames) as Hr.
  { subst w1 r. cbn. apply lookup_insert_eq. }
  rewrite (run_bind_Return _ _ w r w1) by done.
  pose proof (run_sqlForPartialUpdate w1 data r) as Hsql.
  rewrite Hd1, Hr in Hsql. destruct m as [|p m].
  - by rewrite (run_bind_Throw _ _ w1 _ w1 Hsql).
  - rewrite outcome_Some, sqlForPartialUpdate_nonempty in Hsql by done.
    rewrite (run_bind_Return _ _ w1 _ w1 Hsql). cbn [setCols values].
    unfold Effects.run, mbind, Effects.M_bind, Effects.db_query. cbn.
    by destruct (Effects.db_rows w _ _).
Qed.

End JobMethods.

(** X5. [Job.create] asks for the company first and stops there when the
    database answers no row: it throws [NotFoundError] with the text of the
    [companyHandle] it was given, and the check is the only statement sent;
    no INSERT goes out. *)
Theorem create_stops_without_company (w : Effects.World) (data : Effects.Ref)
    (o : JsObject) :
  Effects.heap w !! data = Some o →
  Effects.db_rows w Job.checkSql [jsGet o "companyHandle"] = [] →
  (Effects.run (Job.create data) w).1 =
    Throw (NotFoundError ("No company found with given companyHandle: "
                            +:+ toString (jsGet o "companyHandle"))) ∧
  sent (Job.create data) w = [(Job.checkSql, [jsGet o "companyHandle"])].
Proof.
  intros Hd Hrows. pose proof (run_create w data o Hd) as Hrun.
  rewrite Hrows in Hrun. split; [by rewrite Hrun|].
  apply sent_app. by rewrite Hrun.
Qed.

Lemma create_stops_without_company_witness :
  (Effects.run (Job.create 0) noCompanyStore).1 =
    Throw (NotFoundError ("No company found with given companyHandle: "
                            +:+ toString (jsGet newJob "companyHandle"))) ∧
  sent (Job.create 0) noCompanyStore = [(Job.checkSql, [jsGet newJob "companyHandle"])].
Proof.
  apply (create_stops_without_company noCompanyStore 0 newJob); reflexivity.
Defined.

(** X6. When the check finds a row, [Job.create] sends two statements, the
    check and then the INSERT, whose four parameters are [title], [salary],
    [equity] and [companyHandle] as read from the data ([undefined] for a
    field the data does not have); the result is the first row the INSERT
    answers, [undefined] if it answers none. *)
Theorem create_inserts_after_check (w : Effects.World) (data : Effects.Ref)
    (o : JsObject) :
  Effects.heap w !! data = Some o →
  Effects.db_rows w Job.checkSql [jsGet o "companyHandle"] ≠ [] →
  (Effects.run (Job.create data) w).1 =
    Return (head (Effects.db_rows w Job.insertSql
                    [jsGet o "title"; jsGet o "salary"; jsGet o "equity";
                     jsGet o "companyHandle"])) ∧
  sent (Job.create data) w =
    [(Job.checkSql, [jsGet o "companyHandle"]);
     (Job.insertSql, [jsGet o "title"; jsGet o "salary"; jsGet o "equity";
                      jsGet o "companyHandle"])].
Proof.
  intros Hd Hrows. pose proof (run_create w data o Hd) as Hrun.
  destruct (Effects.db_rows w Job.checkSql [jsGet o "companyHandle"]); [done|].
  split; [by rewrite Hrun|]. apply sent_app. by rewrite Hrun.
Qed.

Lemma create_inserts_after_check_witness :
  (Effects.run (Job.create 0) createStore).1 = Return (Some engineer) ∧
  sent (Job.create 0) createStore =
    [(Job.checkSql, [JStr "ibm"]);
     (Job.insertSql, [JStr "Engineer"; JNum 100; JUndefined; JStr "ibm"])].
Proof.
  apply (create_inserts_after_check createStore 0 newJob);
    [reflexivity | vm_compute; discriminate].
Defined.

(** X7. For a data that is an object and a database that answers the
    statements it is sent, [Job.create] throws [NotFoundError] exactly when
    the check answers no row, and it does not throw [BadRequestError], for
    a job already in the database or otherwise. *)
Theorem create_not_found_iff (w : Effects.World) (data : Effects.Ref)
    (o : JsObject) :
  Effects.heap w !! data = Some o →
  ((∃ message, (Effects.run (Job.create data) w).1 = Throw (NotFoundError message))
   ↔ Effects.db_rows w Job.checkSql [jsGet o "companyHandle"] = []) ∧
  ¬ ∃ message, (Effects.run (Job.create data) w).1 = Throw (BadRequestError message).
Proof.
  intros Hd. rewrite (run_create w data o Hd).
  destruct (Effects.db_rows w Job.checkSql [jsGet o "companyHandle"]) as [|row rows].
  - split; [split; [done | by eexists] | by intros [message ?]].
  - split; [split; [by intros [message ?] | done] | by intros [message ?]].
Qed.

Lemma create_not_found_iff_witness :
  ((∃ message, (Effects.run (Job.create 0) noCompanyStore).1 = Throw (NotFoundError message))
   ↔ Effects.db_rows noCompanyStore Job.checkSql [jsGet newJob "companyHandle"] = []) ∧
  ¬ ∃ message, (Effects.run (Job.create 0) noCompanyStore).1 = Throw (BadRequestError message).
Proof. apply (create_not_found_iff noCompanyStore 0 newJob). reflexivity. Defined.

(** X8. In [Job.create], [Job.findAll], [Job.get] and [Job.remove] the text
    of every statement sent is fixed: the arguments travel as parameters
    only.  [Job.findAll], [Job.get] and [Job.remove] send exactly one
    statement, also when they throw. *)
Theorem statements_are_fixed_texts (w : Effects.World) (data : Effects.Ref)
    (id : JsValue) :
  Forall (λ q, q.1 = Job.checkSql ∨ q.1 = Job.insertSql) (sent (Job.create data) w) ∧
  sent Job.findAll w = [(Job.findAllSql, [])] ∧
  sent (Job.get id) w = [(Job.getSql, [id])] ∧
  sent (Job.remove id) w = [(Job.removeSql, [id])].
Proof.
  split; [|split; [|split]].
  - destruct (Effects.heap w !! data) as [o|] eqn:Hd.
    + pose proof (run_create w data o Hd) as Hrun.
      destruct (Effects.db_rows w Job.checkSql _).
      * erewrite sent_app; [|by rewrite Hrun]. repeat constructor.
      * erewrite sent_app; [|by rewrite Hrun].
        constructor; [by left|]. constructor; [by right|]. constructor.
    + unfold sent. rewrite (run_create_undefined w data Hd). simpl.
      rewrite drop_all. constructor.
  - by apply sent_app.
  - apply sent_app. by rewrite run_get.
  - apply sent_app. by rewrite run_remove.
Qed.

(** X10. [Job.update] with an empty body throws [BadRequestError "No data"]
    and sends nothing to the database. *)
Theorem update_empty_body (w : Effects.World) (id : JsValue) (data : Effects.Ref) :
  Effects.heap w !! data = Some [] →
  (Effects.run (Effects.Job_update id data) w).1 = Throw (BadRequestError "No data") ∧
  sent (Effects.Job_update id data) w = [].
Proof.
  intros Hd. pose proof (run_Job_update w id data [] Hd) as Hrun.
  split; [by rewrite Hrun|].
  apply sent_app. rewrite Hrun. cbn. by rewrite app_nil_r.
Qed.

Lemma update_empty_body_witness :
  (Effects.run (Effects.Job_update (JStr "1") 0) emptyBodyStore).1 =
    Throw (BadRequestError "No data") ∧
  sent (Effects.Job_update (JStr "1") 0) emptyBodyStore = [].
Proof. apply (update_empty_body emptyBodyStore (JStr "1") 0). reflexivity. Defined.

(** X11. [Job.update] with a non-empty body sends one statement, with the
    body's values as its parameters, and then returns the first row the
    database answers; it throws [NotFoundError] with the text of [id] when
    the database answers no row. *)
Theorem update_first_row_or_not_found (w : Effects.World) (id : JsValue)
    (data : Effects.Ref) (m : JsObject) :
  Effects.heap w !! data = Some m → m ≠ [] →
  ∃ sql,
    sent (Effects.Job_update id data) w = [(sql, Object_values m)] ∧
    (Effects.run (Effects.Job_update id data) w).1 =
      match Effects.db_rows w sql (Object_values m) with
      | job :: _ => Return job
      | [] => Throw (NotFoundError ("No job with id: " +:+ toString id))
      end.
Proof.
  intros Hd Hm. pose proof (run_Job_update w id data m Hd) as Hrun.
  destruct m as [|p m]; [done|]. eexists.
  split; [apply sent_app|]; by rewrite Hrun.
Qed.

Lemma update_first_row_or_not_found_witness :
  ∃ sql,
    sent (Effects.Job_update (JStr "1") 1) store1 = [(sql, Object_values aliya)] ∧
    (Effects.run (Effects.Job_update (JStr "1") 1) store1).1 =
      match Effects.db_rows store1 sql (Object_values aliya) with
      | job :: _ => Return job
      | [] => Throw (NotFoundError ("No job with id: " +:+ toString (JStr "1")))
      end.
Proof.
  apply (update_first_row_or_not_found store1 (JStr "1") 1 aliya);
    [reflexivity | discriminate].
Defined.

(** X12. [Job.get] and [Job.remove] throw [NotFoundError] exactly when the
    database answers no row; otherwise [Job.get] returns the first row and
    [Job.remove] returns [undefined]. *)
Theorem get_and_remove_not_found (w : Effects.World) (id : JsValue) :
  ((Effects.run (Job.get id) w).1 =
     Throw (NotFoundError ("No job with id : " +:+ toString id))
   ↔ Effects.db_rows w Job.getSql [id] = []) ∧
  (∀ job, (Effects.run (Job.get id) w).1 = Return job
          ↔ head (Effects.db_rows w Job.getSql [id]) = Some job) ∧
  ((Effects.run (Job.remove id) w).1 = Throw (NotFoundError ("No job: " +:+ toString id))
   ↔ Effects.db_rows w Job.removeSql [id] = []) ∧
  ((Effects.run (Job.remove id) w).1 = Return ()
   ↔ Effects.db_rows w Job.removeSql [id] ≠ []).
Proof.
  rewrite run_get, run_remove. cbn [fst].
  destruct (Effects.db_rows w Job.getSql [id]) as [|job rows];
    destruct (Effects.db_rows w Job.removeSql [id]) as [|row rows'];
    repeat split; intros; simplify_eq/=; done.
Qed.
